(** * The implementors data file [doc/implementors/core/convert/trait.From.js]

    The file is one immediately-invoked function.  It builds an object
    literal, [implementors], with the single key ['multipart'], and hands it
    to the documentation page: through [window.register_implementors] when
    that global is truthy, through [window.pending_implementors] otherwise.

    The embedding keeps the JavaScript reading of the two statements: property
    reads of the global object, the truthiness test of [if], the call of a
    value that may or may not be callable, and the property write. *)

From Stdlib Require Import ZArith String List.
From stdpp Require Import gmap strings list fin_maps.

Local Open Scope string_scope.

(** ** JavaScript values, completions and the global object *)

Module Js.

(** Identity of a function object living in the page. *)
Definition funref := positive.

(** The values a global of the page can hold.  Plain objects are the
    name-to-entries tables this family of data files exchanges, given by
    their contents: every load builds a new object, and two loads of one file
    build objects with the same keys and the same arrays.  Numbers are the
    integer-valued ones and [NaN], which is all [ToBoolean] tells apart. *)
Inductive value : Type :=
| VUndefined
| VNull
| VBool (b : bool)
| VNumber (n : Z)
| VNaN
| VString (s : string)
| VObject (o : gmap string (list string))
| VFunction (f : funref).

(** ECMAScript [ToBoolean]: what [if (v)] tests. *)
Definition ToBoolean (v : value) : bool :=
  match v with
  | VUndefined | VNull | VNaN => false
  | VBool b => b
  | VNumber n => negb (n =? 0)%Z
  | VString s => negb (String.eqb s "")
  | VObject _ | VFunction _ => true
  end.

Definition IsCallable (v : value) : bool :=
  match v with
  | VFunction _ => true
  | _ => false
  end.

Inductive error : Type :=
| TypeError
| Exception (v : value).

Inductive completion (A : Type) : Type :=
| Normal (a : A)
| Throw (e : error).
Arguments Normal {A} a.
Arguments Throw {A} e.

(** What a piece of code does to the page: calls and property writes on
    [window], in program order. *)
Inductive action : Type :=
| Call (callee : funref) (args : list value)
| Assign (slot : string) (v : value).

Record outcome (A : Type) : Type := Outcome {
  result : completion A;
  final : gmap string value;
  trace : list action
}.
Arguments Outcome {A} result final trace.
Arguments result {A} o.
Arguments final {A} o.
Arguments trace {A} o.

(** A computation runs from the properties of [window] to an outcome. *)
Definition js (A : Type) : Type := gmap string value → outcome A.

Definition js_ret {A} (a : A) : js A := λ w, Outcome (Normal a) w [].

Definition js_bind {A B} (k : A → js B) (m : js A) : js B := λ w,
  let o := m w in
  match result o with
  | Normal a =>
      let o' := k a (final o) in
      Outcome (result o') (final o') (trace o ++ trace o')
  | Throw e => Outcome (Throw e) (final o) (trace o)
  end.

#[export] Instance js_mret : MRet js := @js_ret.
#[export] Instance js_mbind : MBind js := @js_bind.

(** [window.k]: an absent data property reads as [undefined]. *)
Definition get_prop (k : string) : js value := λ w,
  Outcome (Normal (default VUndefined (w !! k))) w [].

(** [window.k = v] *)
Definition set_prop (k : string) (v : value) : js unit := λ w,
  Outcome (Normal ()) (<[k := v]> w) [Assign k v].

(** The bodies of the page's functions are not part of the data file: a
    [host] gives, for a function, its arguments and the globals at the call,
    how the call completes and the globals it leaves. *)
Definition host : Type :=
  funref → list value → gmap string value →
  completion value * gmap string value.

(** [callee(args)]: a value that is not callable raises [TypeError] before
    anything runs. *)
Definition call (h : host) (callee : value) (args : list value) : js value :=
  λ w,
    match callee with
    | VFunction f =>
        let r := h f args w in
        Outcome (fst r) (snd r) [Call f args]
    | _ => Outcome (Throw TypeError) w []
    end.

Definition calls (t : list action) : list (funref * list value) :=
  omap (λ a, match a with Call f args => Some (f, args) | Assign _ _ => None end) t.

Definition written_slots (t : list action) : list string :=
  omap (λ a, match a with Assign k _ => Some k | Call _ _ => None end) t.

End Js.

Import Js.

(** ** The data file *)

(** The array literal assigned to [implementors['multipart']]. *)
Definition implementors_multipart : list string :=
  [ "impl&lt;'a&gt; <a class='trait' href='https://doc.rust-lang.org/nightly/core/convert/trait.From.html' title='core::convert::From'>From</a>&lt;&amp;'a <a class='primitive' href='https://doc.rust-lang.org/nightly/std/primitive.str.html'>str</a>&gt; for <a class='enum' href='https://hyperium.github.io/hyper/hyper/client/pool/enum.Scheme.html' title='hyper::client::pool::Scheme'>Scheme</a>"
  ; "impl&lt;'a, R&gt; <a class='trait' href='https://doc.rust-lang.org/nightly/core/convert/trait.From.html' title='core::convert::From'>From</a>&lt;&amp;'a mut R&gt; for <a class='enum' href='https://hyperium.github.io/hyper/hyper/client/enum.Body.html' title='hyper::client::Body'>Body</a>&lt;'a&gt; <span class='where'>where R: <a class='trait' href='https://doc.rust-lang.org/nightly/std/io/trait.Read.html' title='std::io::Read'>Read</a></span>"
  ; "impl <a class='trait' href='https://doc.rust-lang.org/nightly/core/convert/trait.From.html' title='core::convert::From'>From</a>&lt;<a class='struct' href='https://doc.rust-lang.org/nightly/std/io/error/struct.Error.html' title='std::io::error::Error'>Error</a>&gt; for <a class='enum' href='https://hyperium.github.io/hyper/hyper/error/enum.Error.html' title='hyper::error::Error'>Error</a>"
  ; "impl <a class='trait' href='https://doc.rust-lang.org/nightly/core/convert/trait.From.html' title='core::convert::From'>From</a>&lt;ParseError&gt; for <a class='enum' href='https://hyperium.github.io/hyper/hyper/error/enum.Error.html' title='hyper::error::Error'>Error</a>"
  ; "impl <a class='trait' href='https://doc.rust-lang.org/nightly/core/convert/trait.From.html' title='core::convert::From'>From</a>&lt;<a class='enum' href='https://sfackler.github.io/rust-openssl/doc/v0.7.9/openssl/ssl/error/enum.SslError.html' title='openssl::ssl::error::SslError'>SslError</a>&gt; for <a class='enum' href='https://hyperium.github.io/hyper/hyper/error/enum.Error.html' title='hyper::error::Error'>Error</a>"
  ; "impl <a class='trait' href='https://doc.rust-lang.org/nightly/core/convert/trait.From.html' title='core::convert::From'>From</a>&lt;<a class='struct' href='https://doc.rust-lang.org/nightly/core/str/struct.Utf8Error.html' title='core::str::Utf8Error'>Utf8Error</a>&gt; for <a class='enum' href='https://hyperium.github.io/hyper/hyper/error/enum.Error.html' title='hyper::error::Error'>Error</a>"
  ; "impl <a class='trait' href='https://doc.rust-lang.org/nightly/core/convert/trait.From.html' title='core::convert::From'>From</a>&lt;<a class='struct' href='https://doc.rust-lang.org/nightly/collections/string/struct.FromUtf8Error.html' title='collections::string::FromUtf8Error'>FromUtf8Error</a>&gt; for <a class='enum' href='https://hyperium.github.io/hyper/hyper/error/enum.Error.html' title='hyper::error::Error'>Error</a>"
  ; "impl <a class='trait' href='https://doc.rust-lang.org/nightly/core/convert/trait.From.html' title='core::convert::From'>From</a>&lt;Error&gt; for <a class='enum' href='https://hyperium.github.io/hyper/hyper/error/enum.Error.html' title='hyper::error::Error'>Error</a>"
  ; "impl <a class='trait' href='https://doc.rust-lang.org/nightly/core/convert/trait.From.html' title='core::convert::From'>From</a>&lt;<a class='enum' href='https://mlalic.github.io/solicit/solicit/http/enum.HttpError.html' title='solicit::http::HttpError'>HttpError</a>&gt; for <a class='enum' href='https://hyperium.github.io/hyper/hyper/error/enum.Error.html' title='hyper::error::Error'>Error</a>"
  ; "impl&lt;T&gt; <a class='trait' href='https://doc.rust-lang.org/nightly/core/convert/trait.From.html' title='core::convert::From'>From</a>&lt;<a class='struct' href='https://doc.rust-lang.org/nightly/collections/vec/struct.Vec.html' title='collections::vec::Vec'>Vec</a>&lt;T&gt;&gt; for <a class='struct' href='https://doc.rust-lang.org/nightly/collections/binary_heap/struct.BinaryHeap.html' title='collections::binary_heap::BinaryHeap'>BinaryHeap</a>&lt;T&gt; <span class='where'>where T: <a class='trait' href='https://doc.rust-lang.org/nightly/core/cmp/trait.Ord.html' title='core::cmp::Ord'>Ord</a></span>"
  ; "impl&lt;T&gt; <a class='trait' href='https://doc.rust-lang.org/nightly/core/convert/trait.From.html' title='core::convert::From'>From</a>&lt;<a class='struct' href='https://doc.rust-lang.org/nightly/collections/binary_heap/struct.BinaryHeap.html' title='collections::binary_heap::BinaryHeap'>BinaryHeap</a>&lt;T&gt;&gt; for <a class='struct' href='https://doc.rust-lang.org/nightly/collections/vec/struct.Vec.html' title='collections::vec::Vec'>Vec</a>&lt;T&gt;"
  ; "impl&lt;'a, T&gt; <a class='trait' href='https://doc.rust-lang.org/nightly/core/convert/trait.From.html' title='core::convert::From'>From</a>&lt;&amp;'a mut <a class='enum' href='https://doc.rust-lang.org/nightly/core/option/enum.Option.html' title='core::option::Option'>Option</a>&lt;<a class='struct' href='https://doc.rust-lang.org/nightly/alloc/boxed/struct.Box.html' title='alloc::boxed::Box'>Box</a>&lt;<a class='struct' href='https://doc.rust-lang.org/nightly/collections/linked_list/struct.Node.html' title='collections::linked_list::Node'>Node</a>&lt;T&gt;&gt;&gt;&gt; for <a class='struct' href='https://doc.rust-lang.org/nightly/collections/linked_list/struct.Rawlink.html' title='collections::linked_list::Rawlink'>Rawlink</a>&lt;<a class='struct' href='https://doc.rust-lang.org/nightly/collections/linked_list/struct.Node.html' title='collections::linked_list::Node'>Node</a>&lt;T&gt;&gt;"
  ; "impl&lt;'a&gt; <a class='trait' href='https://doc.rust-lang.org/nightly/core/convert/trait.From.html' title='core::convert::From'>From</a>&lt;&amp;'a <a class='primitive' href='https://doc.rust-lang.org/nightly/std/primitive.str.html'>str</a>&gt; for <a class='struct' href='https://doc.rust-lang.org/nightly/collections/string/struct.String.html' title='collections::string::String'>String</a>"
  ; "impl&lt;'a&gt; <a class='trait' href='https://doc.rust-lang.org/nightly/core/convert/trait.From.html' title='core::convert::From'>From</a>&lt;&amp;'a <a class='primitive' href='https://doc.rust-lang.org/nightly/std/primitive.str.html'>str</a>&gt; for <a class='enum' href='https://doc.rust-lang.org/nightly/collections/borrow/enum.Cow.html' title='collections::borrow::Cow'>Cow</a>&lt;'a, <a class='primitive' href='https://doc.rust-lang.org/nightly/std/primitive.str.html'>str</a>&gt;"
  ; "impl&lt;'a&gt; <a class='trait' href='https://doc.rust-lang.org/nightly/core/convert/trait.From.html' title='core::convert::From'>From</a>&lt;<a class='struct' href='https://doc.rust-lang.org/nightly/collections/string/struct.String.html' title='collections::string::String'>String</a>&gt; for <a class='enum' href='https://doc.rust-lang.org/nightly/collections/borrow/enum.Cow.html' title='collections::borrow::Cow'>Cow</a>&lt;'a, <a class='primitive' href='https://doc.rust-lang.org/nightly/std/primitive.str.html'>str</a>&gt;"
  ; "impl&lt;'a, T&gt; <a class='trait' href='https://doc.rust-lang.org/nightly/core/convert/trait.From.html' title='core::convert::From'>From</a>&lt;<a class='primitive' href='https://doc.rust-lang.org/nightly/std/primitive.slice.html'>&amp;'a [T]</a>&gt; for <a class='struct' href='https://doc.rust-lang.org/nightly/collections/vec/struct.Vec.html' title='collections::vec::Vec'>Vec</a>&lt;T&gt; <span class='where'>where T: <a class='trait' href='https://doc.rust-lang.org/nightly/core/clone/trait.Clone.html' title='core::clone::Clone'>Clone</a></span>"
  ; "impl&lt;'a&gt; <a class='trait' href='https://doc.rust-lang.org/nightly/core/convert/trait.From.html' title='core::convert::From'>From</a>&lt;&amp;'a <a class='primitive' href='https://doc.rust-lang.org/nightly/std/primitive.str.html'>str</a>&gt; for <a class='struct' href='https://doc.rust-lang.org/nightly/collections/vec/struct.Vec.html' title='collections::vec::Vec'>Vec</a>&lt;<a class='primitive' href='https://doc.rust-lang.org/nightly/std/primitive.u8.html'>u8</a>&gt;"
  ; "impl&lt;T&gt; <a class='trait' href='https://doc.rust-lang.org/nightly/core/convert/trait.From.html' title='core::convert::From'>From</a>&lt;T&gt; for <a class='struct' href='https://doc.rust-lang.org/nightly/alloc/boxed/struct.Box.html' title='alloc::boxed::Box'>Box</a>&lt;T&gt;"
  ; "impl&lt;W&gt; <a class='trait' href='https://doc.rust-lang.org/nightly/core/convert/trait.From.html' title='core::convert::From'>From</a>&lt;<a class='struct' href='https://hyperium.github.io/hyper/hyper/http/h1/struct.EndError.html' title='hyper::http::h1::EndError'>EndError</a>&lt;W&gt;&gt; for <a class='struct' href='https://doc.rust-lang.org/nightly/std/io/error/struct.Error.html' title='std::io::error::Error'>Error</a> <span class='where'>where W: <a class='trait' href='https://doc.rust-lang.org/nightly/std/io/trait.Write.html' title='std::io::Write'>Write</a></span>"
  ; "impl <a class='trait' href='https://doc.rust-lang.org/nightly/core/convert/trait.From.html' title='core::convert::From'>From</a>&lt;<a class='struct' href='https://doc.rust-lang.org/nightly/std/io/error/struct.Error.html' title='std::io::error::Error'>Error</a>&gt; for <a class='struct' href='https://hyperium.github.io/hyper/hyper/http/h2/struct.Http2ConnectError.html' title='hyper::http::h2::Http2ConnectError'>Http2ConnectError</a>"
  ; "impl&lt;T&gt; <a class='trait' href='https://doc.rust-lang.org/nightly/core/convert/trait.From.html' title='core::convert::From'>From</a>&lt;T&gt; for <a class='struct' href='https://doc.rust-lang.org/nightly/alloc/boxed/struct.Box.html' title='alloc::boxed::Box'>Box</a>&lt;<a class='trait' href='https://hyperium.github.io/hyper/hyper/net/trait.NetworkStream.html' title='hyper::net::NetworkStream'>NetworkStream</a> + 'static + <a class='trait' href='https://doc.rust-lang.org/nightly/core/marker/trait.Send.html' title='core::marker::Send'>Send</a>&gt; <span class='where'>where T: <a class='trait' href='https://doc.rust-lang.org/nightly/core/marker/trait.Send.html' title='core::marker::Send'>Send</a> + <a class='trait' href='https://hyperium.github.io/hyper/hyper/net/trait.NetworkStream.html' title='hyper::net::NetworkStream'>NetworkStream</a></span>"
  ; "impl <a class='trait' href='https://doc.rust-lang.org/nightly/core/convert/trait.From.html' title='core::convert::From'>From</a>&lt;<a class='struct' href='https://doc.rust-lang.org/nightly/std/net/tcp/struct.TcpListener.html' title='std::net::tcp::TcpListener'>TcpListener</a>&gt; for <a class='struct' href='https://hyperium.github.io/hyper/hyper/net/struct.HttpListener.html' title='hyper::net::HttpListener'>HttpListener</a>"
  ; "impl <a class='trait' href='https://doc.rust-lang.org/nightly/core/convert/trait.From.html' title='core::convert::From'>From</a>&lt;<a class='primitive' href='https://doc.rust-lang.org/nightly/std/primitive.i8.html'>i8</a>&gt; for StatusCode"
  ; "impl <a class='trait' href='https://doc.rust-lang.org/nightly/core/convert/trait.From.html' title='core::convert::From'>From</a>&lt;<a class='primitive' href='https://doc.rust-lang.org/nightly/std/primitive.u8.html'>u8</a>&gt; for StatusCode"
  ; "impl <a class='trait' href='https://doc.rust-lang.org/nightly/core/convert/trait.From.html' title='core::convert::From'>From</a>&lt;<a class='primitive' href='https://doc.rust-lang.org/nightly/std/primitive.i16.html'>i16</a>&gt; for StatusCode"
  ; "impl <a class='trait' href='https://doc.rust-lang.org/nightly/core/convert/trait.From.html' title='core::convert::From'>From</a>&lt;<a class='primitive' href='https://doc.rust-lang.org/nightly/std/primitive.u16.html'>u16</a>&gt; for StatusCode"
  ; "impl <a class='trait' href='https://doc.rust-lang.org/nightly/core/convert/trait.From.html' title='core::convert::From'>From</a>&lt;<a class='primitive' href='https://doc.rust-lang.org/nightly/std/primitive.i32.html'>i32</a>&gt; for StatusCode"
  ; "impl <a class='trait' href='https://doc.rust-lang.org/nightly/core/convert/trait.From.html' title='core::convert::From'>From</a>&lt;<a class='primitive' href='https://doc.rust-lang.org/nightly/std/primitive.u32.html'>u32</a>&gt; for StatusCode"
  ; "impl <a class='trait' href='https://doc.rust-lang.org/nightly/core/convert/trait.From.html' title='core::convert::From'>From</a>&lt;<a class='primitive' href='https://doc.rust-lang.org/nightly/std/primitive.tuple.html'>(<a class='primitive' href='https://doc.rust-lang.org/nightly/std/primitive.u8.html'>u8</a>, <a class='primitive' href='https://doc.rust-lang.org/nightly/std/primitive.u8.html'>u8</a>)</a>&gt; for HTTPVersion"
  ; "impl <a class='trait' href='https://doc.rust-lang.org/nightly/core/convert/trait.From.html' title='core::convert::From'>From</a>&lt;<a class='struct' href='https://doc.rust-lang.org/nightly/std/io/error/struct.Error.html' title='std::io::error::Error'>Error</a>&gt; for RequestCreationError"
  ; "impl <a class='trait' href='https://doc.rust-lang.org/nightly/core/convert/trait.From.html' title='core::convert::From'>From</a>&lt;<a class='struct' href='https://doc.rust-lang.org/nightly/std/net/tcp/struct.TcpStream.html' title='std::net::tcp::TcpStream'>TcpStream</a>&gt; for Stream"
  ; "impl <a class='trait' href='https://doc.rust-lang.org/nightly/core/convert/trait.From.html' title='core::convert::From'>From</a>&lt;<a class='struct' href='https://doc.rust-lang.org/nightly/std/io/error/struct.Error.html' title='std::io::error::Error'>Error</a>&gt; for Message"
  ; "impl <a class='trait' href='https://doc.rust-lang.org/nightly/core/convert/trait.From.html' title='core::convert::From'>From</a>&lt;<a class='struct' href='multipart/server/tiny_http/struct.TinyHttpRequest.html' title='multipart::server::tiny_http::TinyHttpRequest'>Request</a>&gt; for Message"
  ].

(** [var implementors = {}; implementors['multipart'] = [...];] *)
Definition implementors : gmap string (list string) :=
  <["multipart" := implementors_multipart]> ∅.

Section Registration.

Variable page : host.

(** The [if]/[else] of the file, for a table [t]. *)
Definition handoff (t : gmap string (list string)) : js unit :=
  hook ← get_prop "register_implementors";
  if ToBoolean hook then
    callee ← get_prop "register_implementors";
    _ ← call page callee [VObject t];
    mret ()
  else
    set_prop "pending_implementors" (VObject t).

(** The whole immediately-invoked function. *)
Definition registration_step : js unit := handoff implementors.

(** Loading the file once more on the globals a first load left. *)
Definition reload (w : gmap string value) : outcome unit :=
  registration_step (final (registration_step w)).

End Registration.

(** ** Reading the two globals *)

(** [window.register_implementors] holds the function [f]. *)
Definition hook_set (w : gmap string value) (f : funref) : Prop :=
  w !! "register_implementors" = Some (VFunction f).

(** [window.register_implementors] fails the test of the [if]: the property
    is absent, or holds [undefined], [null] or another falsy value. *)
Definition hook_unset (w : gmap string value) : Prop :=
  ToBoolean (default VUndefined (w !! "register_implementors")) = false.

(** The step's completion when the hook's own completion is [c]. *)
Definition discard (c : completion value) : completion unit :=
  match c with
  | Normal _ => Normal ()
  | Throw e => Throw e
  end.

(** ** Sample pages *)

(** A page whose functions do nothing. *)
Definition quiet : host := λ _ _ w, (Normal VUndefined, w).

(** A page whose functions keep their first argument in [window.rendered]. *)
Definition render : host := λ _ args w,
  (Normal VUndefined, <["rendered" := default VUndefined (head args)]> w).

(** A page whose functions throw. *)
Definition broken : host := λ _ _ w, (Throw (Exception (VString "boom")), w).

Definition other_table : gmap string (list string) :=
  <["hyper" := ["impl From for Other"]]> ∅.

Definition page_ready : gmap string value :=
  <["register_implementors" := VFunction 1%positive]> ∅.

Definition page_ready_parked : gmap string value :=
  <["pending_implementors" := VObject other_table]> page_ready.

Definition page_not_ready : gmap string value :=
  <["pending_implementors" := VObject other_table]>
    (<["search_index" := VNumber 7]> ∅).

Definition page_flagged : gmap string value :=
  <["register_implementors" := VBool true]> ∅.

(** ** The three ways through the [if] *)

Lemma bind_get_prop {B} (k : string) (body : value → js B) (w : gmap string value) :
  (get_prop k ≫= body) w = body (default VUndefined (w !! k)) w.
Proof.
  unfold mbind, js_mbind, js_bind, get_prop. cbn.
  destruct (body _ w); reflexivity.
Qed.

Section Branches.

Variable page : host.
Variable t : gmap string (list string).
Variable w : gmap string value.

Lemma handoff_unset :
  hook_unset w →
  handoff page t w =
    Outcome (Normal ()) (<["pending_implementors" := VObject t]> w)
            [Assign "pending_implementors" (VObject t)].
Proof.
  unfold hook_unset, handoff. intros Hfalse.
  rewrite bind_get_prop, Hfalse. reflexivity.
Qed.

Lemma handoff_set (f : funref) :
  hook_set w f →
  handoff page t w =
    Outcome (discard (fst (page f [VObject t] w)))
            (snd (page f [VObject t] w))
            [Call f [VObject t]].
Proof.
  unfold hook_set, handoff. intros Hf.
  rewrite bind_get_prop, Hf. cbn -[mbind].
  rewrite bind_get_prop, Hf. cbn -[mbind].
  unfold mbind, js_mbind, js_bind, call. cbn.
  destruct (page f [VObject t] w) as [[v | e] w']; reflexivity.
Qed.

Lemma handoff_not_callable :
  ToBoolean (default VUndefined (w !! "register_implementors")) = true →
  IsCallable (default VUndefined (w !! "register_implementors")) = false →
  handoff page t w = Outcome (Throw TypeError) w [].
Proof.
  unfold handoff. intros Htrue Hcall.
  rewrite bind_get_prop, Htrue, bind_get_prop.
  destruct (default VUndefined (w !! "register_implementors"));
    first [discriminate Hcall | reflexivity].
Qed.

End Branches.

Lemma hook_set_not_unset (w : gmap string value) (f : funref) :
  hook_set w f → ¬ hook_unset w.
Proof. unfold hook_set, hook_unset. intros ->. discriminate. Qed.

Lemma hook_unset_after_park (w : gmap string value) (v : value) :
  hook_unset w → hook_unset (<["pending_implementors" := v]> w).
Proof.
  unfold hook_unset. intros H. rewrite lookup_insert_ne; [exact H | discriminate].
Qed.

(** The slot is falsy, or holds a function, or holds a truthy value that
    cannot be called. *)
Lemma hook_cases (w : gmap string value) :
  hook_unset w ∨
  (∃ f, hook_set w f) ∨
  (ToBoolean (default VUndefined (w !! "register_implementors")) = true ∧
   IsCallable (default VUndefined (w !! "register_implementors")) = false).
Proof.
  unfold hook_unset, hook_set.
  destruct (w !! "register_implementors") as [v |]; [| left; reflexivity].
  destruct (ToBoolean (default VUndefined (Some v))) eqn:Hb; [| left; reflexivity].
  right. destruct v; try (right; split; reflexivity).
  left. eexists. reflexivity.
Qed.

(** Two loads in a row with nobody listening, for any two tables. *)
Lemma handoff_overwrites (page : host) (t1 t2 : gmap string (list string))
    (w : gmap string value) :
  hook_unset w →
  final (handoff page t2 (final (handoff page t1 w))) =
    <["pending_implementors" := VObject t2]> w.
Proof.
  intros H. rewrite (handoff_unset page t1 w H). cbn.
  rewrite handoff_unset by (apply hook_unset_after_park; exact H).
  cbn. apply insert_insert_eq.
Qed.

(** ** The step at work *)

Example step_on_empty_page :
  registration_step quiet ∅ =
    Outcome (Normal ())
            (<["pending_implementors" := VObject implementors]> ∅)
            [Assign "pending_implementors" (VObject implementors)].
Proof. reflexivity. Qed.

Example step_on_ready_page :
  registration_step render page_ready =
    Outcome (Normal ())
            (<["rendered" := VObject implementors]> page_ready)
            [Call 1%positive [VObject implementors]].
Proof. reflexivity. Qed.

(** A failure inside the called function is the step's completion; the call
    was made all the same. *)
Example step_on_broken_page :
  registration_step broken page_ready =
    Outcome (Throw (Exception (VString "boom"))) page_ready
            [Call 1%positive [VObject implementors]].
Proof. reflexivity. Qed.

(** Every falsy value in the slot sends the step to the [else]. *)
Example falsy_slot_is_unset :
  Forall (λ v, hook_unset (<["register_implementors" := v]> ∅))
         [VUndefined; VNull; VBool false; VNumber 0; VNaN; VString ""].
Proof. repeat constructor. Qed.

(** ** The literal table *)

(** C4: the literal table has exactly the one key ["multipart"]; the value
    there is a sequence of strings that is not empty, and none of its strings
    is the empty string. *)
Theorem implementors_shape :
  dom implementors = ({["multipart"]} : gset string) ∧
  implementors !! "multipart" = Some implementors_multipart ∧
  implementors_multipart ≠ [] ∧
  Forall (λ s : string, s ≠ "") implementors_multipart.
Proof.
  split; [| split; [| split]].
  - unfold implementors. rewrite dom_insert_L, dom_empty_L. set_solver.
  - unfold implementors. apply lookup_insert_eq.
  - discriminate.
  - unfold implementors_multipart. repeat (constructor; [discriminate |]).
    constructor.
Qed.

(** C10: the sequence under ["multipart"] has exactly 33 strings, and each of
    them begins with the four characters [impl]. *)
Theorem implementors_multipart_entries :
  ∃ entries : list string,
    implementors !! "multipart" = Some entries ∧
    length entries = 33 ∧
    Forall (λ s : string, ∃ rest : string, s = "impl" +:+ rest) entries.
Proof.
  exists implementors_multipart. split; [| split].
  - unfold implementors. apply lookup_insert_eq.
  - reflexivity.
  - unfold implementors_multipart.
    repeat (constructor; [eexists; reflexivity |]). constructor.
Qed.

(** ** The registration step *)

Section Step.

Variable page : host.

(** C1: when [window.register_implementors] holds a function as the step
    starts, all the step does is call that function, once, with one argument,
    the literal table; the call is part of the step, whose completion and
    final globals are those of the call. *)
Theorem hook_invoked_once (w : gmap string value) (f : funref) :
  hook_set w f →
  trace (registration_step page w) = [Call f [VObject implementors]] ∧
  calls (trace (registration_step page w)) = [(f, [VObject implementors])] ∧
  result (registration_step page w) =
    discard (fst (page f [VObject implementors] w)) ∧
  final (registration_step page w) = snd (page f [VObject implementors] w).
Proof.
  intros Hf. unfold registration_step.
  rewrite (handoff_set page implementors w f Hf). cbn. done.
Qed.

(** C2: when [window.register_implementors] fails the test as the step
    starts, [window.pending_implementors] holds the literal table afterwards
    and the step has called nothing. *)
Theorem unset_parks_table (w : gmap string value) :
  hook_unset w →
  final (registration_step page w) !! "pending_implementors" =
    Some (VObject implementors) ∧
  calls (trace (registration_step page w)) = [].
Proof.
  intros H. unfold registration_step.
  rewrite (handoff_unset page implementors w H). cbn.
  split; [apply lookup_insert_eq | reflexivity].
Qed.

(** C3: two loads in a row with the hook unset: the hook is still unset at
    the second load, and afterwards [window.pending_implementors] holds the
    table of the second load, whatever it held before the first; the globals
    are the initial ones with that one slot replaced, nothing merged or
    appended. *)
Theorem pending_last_write_wins (w : gmap string value) :
  hook_unset w →
  hook_unset (final (registration_step page w)) ∧
  final (reload page w) !! "pending_implementors" =
    Some (VObject implementors) ∧
  final (reload page w) = <["pending_implementors" := VObject implementors]> w.
Proof.
  intros H. unfold reload, registration_step.
  rewrite (handoff_overwrites page implementors implementors w H).
  rewrite (handoff_unset page implementors w H). cbn.
  split; [apply hook_unset_after_park; exact H |].
  split; [apply lookup_insert_eq | reflexivity].
Qed.

(** C5: two loads in a row with the same function installed at both: each
    load is exactly one call of that function with the literal table, so the
    two calls are the same; neither load writes a global, and the globals
    after each are the ones the function left. *)
Theorem hook_path_idempotent (w : gmap string value) (f : funref) :
  hook_set w f →
  hook_set (final (registration_step page w)) f →
  trace (registration_step page w) = [Call f [VObject implementors]] ∧
  trace (reload page w) = trace (registration_step page w) ∧
  written_slots (trace (registration_step page w) ++ trace (reload page w)) = [] ∧
  final (registration_step page w) = snd (page f [VObject implementors] w) ∧
  final (reload page w) =
    snd (page f [VObject implementors] (final (registration_step page w))).
Proof.
  intros Hf Hf'. unfold reload, registration_step in *.
  rewrite (handoff_set page implementors _ f Hf').
  rewrite (handoff_set page implementors w f Hf). cbn.
  repeat split; reflexivity.
Qed.

(** C6, as amended: when [window.register_implementors] is falsy or
    callable, and the function it may hold returns, the step completes
    normally, with no value. *)
Theorem registration_step_completes (w : gmap string value) :
  (ToBoolean (default VUndefined (w !! "register_implementors")) = false ∨
   IsCallable (default VUndefined (w !! "register_implementors")) = true) →
  (∀ f, hook_set w f →
        ∃ v, fst (page f [VObject implementors] w) = Normal v) →
  result (registration_step page w) = Normal ().
Proof.
  intros Hwf Hreturns. unfold registration_step.
  destruct (hook_cases w) as [Hunset | [[f Hf] | [Htrue Hcall]]].
  - rewrite (handoff_unset page implementors w Hunset). reflexivity.
  - rewrite (handoff_set page implementors w f Hf). cbn.
    destruct (Hreturns f Hf) as [v ->]. reflexivity.
  - destruct Hwf as [Hfalse | Hcallable]; congruence.
Qed.

(** C7: when [window.register_implementors] fails the test, the step's one
    effect is the write of [window.pending_implementors]: every other
    property of [window], [register_implementors] among them, is as
    before. *)
Theorem unset_step_frame (w : gmap string value) :
  hook_unset w →
  trace (registration_step page w) =
    [Assign "pending_implementors" (VObject implementors)] ∧
  (∀ k : string, k ≠ "pending_implementors" →
                 final (registration_step page w) !! k = w !! k) ∧
  final (registration_step page w) !! "register_implementors" =
    w !! "register_implementors".
Proof.
  intros H. unfold registration_step.
  rewrite (handoff_unset page implementors w H). cbn.
  split; [reflexivity |]. split.
  - intros k Hk. apply lookup_insert_ne. congruence.
  - apply lookup_insert_ne. discriminate.
Qed.

(** C8: the step never writes [window.register_implementors].  No write of
    that property occurs in any branch, and its value after the step is its
    value before, as long as the function the step calls does not itself
    reassign it. *)
Theorem hook_slot_never_written (w : gmap string value) :
  ("register_implementors" ∉ written_slots (trace (registration_step page w))) ∧
  ((∀ f, hook_set w f →
         snd (page f [VObject implementors] w) !! "register_implementors" =
           w !! "register_implementors") →
   final (registration_step page w) !! "register_implementors" =
     w !! "register_implementors").
Proof.
  unfold registration_step.
  destruct (hook_cases w) as [Hunset | [[f Hf] | [Htrue Hcall]]].
  - rewrite (handoff_unset page implementors w Hunset). cbn. split.
    + intros Hin. apply list_elem_of_singleton in Hin. discriminate Hin.
    + intros _. apply lookup_insert_ne. discriminate.
  - rewrite (handoff_set page implementors w f Hf). cbn. split.
    + apply not_elem_of_nil.
    + intros Hkeeps. apply Hkeeps, Hf.
  - rewrite (handoff_not_callable page implementors w Htrue Hcall). cbn.
    split; [apply not_elem_of_nil | reflexivity].
Qed.

(** C9: when [window.register_implementors] holds a function, the step
    writes no property of [window] and leaves the globals as the called
    function left them; a table parked in [window.pending_implementors] by an
    earlier load is still there, as long as the called function does not
    itself touch that property. *)
Theorem hook_branch_keeps_pending (w : gmap string value) (f : funref) :
  hook_set w f →
  written_slots (trace (registration_step page w)) = [] ∧
  final (registration_step page w) = snd (page f [VObject implementors] w) ∧
  (snd (page f [VObject implementors] w) !! "pending_implementors" =
     w !! "pending_implementors" →
   final (registration_step page w) !! "pending_implementors" =
     w !! "pending_implementors").
Proof.
  intros Hf. unfold registration_step.
  rewrite (handoff_set page implementors w f Hf). cbn.
  split; [reflexivity |]. split; [reflexivity |]. intros Hkeeps. exact Hkeeps.
Qed.

End Step.

(** ** The step on sample pages *)

Lemma hook_invoked_once_witness :
  hook_set page_ready_parked 1%positive ∧
  (trace (registration_step render page_ready_parked) =
     [Call 1%positive [VObject implementors]] ∧
   calls (trace (registration_step render page_ready_parked)) =
     [(1%positive, [VObject implementors])] ∧
   result (registration_step render page_ready_parked) =
     discard (fst (render 1%positive [VObject implementors] page_ready_parked)) ∧
   final (registration_step render page_ready_parked) =
     snd (render 1%positive [VObject implementors] page_ready_parked)).
Proof.
  split; [reflexivity |].
  apply (hook_invoked_once render page_ready_parked 1%positive). reflexivity.
Defined.

Lemma unset_parks_table_witness :
  hook_unset page_not_ready ∧
  (final (registration_step quiet page_not_ready) !! "pending_implementors" =
     Some (VObject implementors) ∧
   calls (trace (registration_step quiet page_not_ready)) = []).
Proof.
  split; [reflexivity |].
  apply (unset_parks_table quiet page_not_ready). reflexivity.
Defined.

Lemma pending_last_write_wins_witness :
  hook_unset page_not_ready ∧
  page_not_ready !! "pending_implementors" = Some (VObject other_table) ∧
  (hook_unset (final (registration_step quiet page_not_ready)) ∧
   final (reload quiet page_not_ready) !! "pending_implementors" =
     Some (VObject implementors) ∧
   final (reload quiet page_not_ready) =
     <["pending_implementors" := VObject implementors]> page_not_ready).
Proof.
  split; [reflexivity |]. split; [reflexivity |].
  apply (pending_last_write_wins quiet page_not_ready). reflexivity.
Defined.

Lemma hook_path_idempotent_witness :
  hook_set page_ready 1%positive ∧
  hook_set (final (registration_step render page_ready)) 1%positive ∧
  (trace (registration_step render page_ready) =
     [Call 1%positive [VObject implementors]] ∧
   trace (reload render page_ready) = trace (registration_step render page_ready) ∧
   written_slots (trace (registration_step render page_ready) ++
                  trace (reload render page_ready)) = [] ∧
   final (registration_step render page_ready) =
     snd (render 1%positive [VObject implementors] page_ready) ∧
   final (reload render page_ready) =
     snd (render 1%positive [VObject implementors]
            (final (registration_step render page_ready)))).
Proof.
  split; [reflexivity |]. split; [reflexivity |].
  apply (hook_path_idempotent render page_ready 1%positive); reflexivity.
Defined.

(** C6, as first stated, fails: a truthy value that is not a function passes
    the test and is then called.  The functions of [quiet] never fail, and
    none is reached. *)
Lemma registration_step_type_error :
  ToBoolean (default VUndefined (page_flagged !! "register_implementors")) = true ∧
  result (registration_step quiet page_flagged) = Throw TypeError ∧
  result (registration_step quiet page_flagged) ≠ Normal ().
Proof. split; [reflexivity |]. split; [reflexivity | discriminate]. Qed.

Lemma registration_step_completes_witness :
  IsCallable (default VUndefined (page_ready !! "register_implementors")) = true ∧
  ToBoolean (default VUndefined (page_not_ready !! "register_implementors")) = false ∧
  result (registration_step render page_ready) = Normal () ∧
  result (registration_step render page_not_ready) = Normal ().
Proof.
  split; [reflexivity |]. split; [reflexivity |]. split.
  - apply (registration_step_completes render page_ready).
    + right. reflexivity.
    + intros f _. exists VUndefined. reflexivity.
  - apply (registration_step_completes render page_not_ready).
    + left. reflexivity.
    + intros f _. exists VUndefined. reflexivity.
Defined.

Lemma unset_step_frame_witness :
  hook_unset page_not_ready ∧
  (trace (registration_step quiet page_not_ready) =
     [Assign "pending_implementors" (VObject implementors)] ∧
   (∀ k : string, k ≠ "pending_implementors" →
      final (registration_step quiet page_not_ready) !! k = page_not_ready !! k) ∧
   final (registration_step quiet page_not_ready) !! "register_implementors" =
     page_not_ready !! "register_implementors").
Proof.
  split; [reflexivity |].
  apply (unset_step_frame quiet page_not_ready). reflexivity.
Defined.

Lemma hook_slot_never_written_witness :
  (∀ f, hook_set page_ready f →
        snd (render f [VObject implementors] page_ready) !! "register_implementors" =
          page_ready !! "register_implementors") ∧
  ("register_implementors" ∉ written_slots (trace (registration_step render page_ready))) ∧
  final (registration_step render page_ready) !! "register_implementors" =
    Some (VFunction 1%positive).
Proof.
  assert (Hkeeps : ∀ f, hook_set page_ready f →
            snd (render f [VObject implementors] page_ready) !! "register_implementors" =
              page_ready !! "register_implementors")
    by (intros f _; reflexivity).
  split; [exact Hkeeps |].
  destruct (hook_slot_never_written render page_ready) as [Hnot Hsame].
  split; [exact Hnot | exact (Hsame Hkeeps)].
Defined.

Lemma hook_branch_keeps_pending_witness :
  hook_set page_ready_parked 1%positive ∧
  snd (render 1%positive [VObject implementors] page_ready_parked) !! "pending_implementors" =
    page_ready_parked !! "pending_implementors" ∧
  written_slots (trace (registration_step render page_ready_parked)) = [] ∧
  final (registration_step render page_ready_parked) !! "pending_implementors" =
    Some (VObject other_table).
Proof.
  assert (Hf : hook_set page_ready_parked 1%positive) by reflexivity.
  destruct (hook_branch_keeps_pending render page_ready_parked 1%positive Hf)
    as (Hnone & _ & Hsame).
  split; [exact Hf |]. split; [reflexivity |].
  split; [exact Hnone | exact (Hsame eq_refl)].
Defined.

(** ** Which branch ran, read back from what the step did *)

Section Branching.

Variable page : host.

(** X1: the step ends in [TypeError] with the globals untouched and nothing
    called or written exactly when [window.register_implementors] holds a
    truthy value that is not a function. *)
Theorem type_error_iff_non_callable (w : gmap string value) :
  (ToBoolean (default VUndefined (w !! "register_implementors")) = true ∧
   IsCallable (default VUndefined (w !! "register_implementors")) = false) ↔
  registration_step page w = Outcome (Throw TypeError) w [].
Proof.
  unfold registration_step. split.
  - intros [Htrue Hcall]. apply handoff_not_callable; assumption.
  - intros Hstep.
    destruct (hook_cases w) as [Hunset | [[f Hf] | Hbad]]; [| | exact Hbad].
    + rewrite (handoff_unset page implementors w Hunset) in Hstep.
      discriminate Hstep.
    + rewrite (handoff_set page implementors w f Hf) in Hstep.
      apply (f_equal trace) in Hstep. discriminate Hstep.
Qed.

(** X2: the step completes normally exactly when the slot is falsy, or holds
    a function whose call returns. *)
Theorem completes_normally_iff (w : gmap string value) :
  result (registration_step page w) = Normal () ↔
  (hook_unset w ∨
   ∃ f v, hook_set w f ∧ fst (page f [VObject implementors] w) = Normal v).
Proof.
  unfold registration_step.
  destruct (hook_cases w) as [Hunset | [[f Hf] | [Htrue Hcall]]].
  - rewrite (handoff_unset page implementors w Hunset). cbn.
    split; [intros _; left; exact Hunset | reflexivity].
  - rewrite (handoff_set page implementors w f Hf). cbn. split.
    + intros Hres. right. exists f.
      destruct (fst (page f [VObject implementors] w)) as [v | e];
        [exists v; split; [exact Hf | reflexivity] | discriminate Hres].
    + intros [Hunset | (f' & v & Hf' & Hret)].
      * destruct (hook_set_not_unset w f Hf Hunset).
      * unfold hook_set in Hf, Hf'. rewrite Hf in Hf'.
        injection Hf' as <-. rewrite Hret. reflexivity.
  - rewrite (handoff_not_callable page implementors w Htrue Hcall). cbn. split.
    + discriminate.
    + intros [Hunset | (f' & v & Hf' & _)].
      * unfold hook_unset in Hunset. congruence.
      * unfold hook_set in Hf'. rewrite Hf' in Hcall. discriminate Hcall.
Qed.

(** X3: the only errors the step can end in are the [TypeError] of calling a
    truthy value that is not a function, and whatever the called function
    itself threw. *)
Theorem step_throws_iff (w : gmap string value) (e : error) :
  result (registration_step page w) = Throw e ↔
  ((e = TypeError ∧
    ToBoolean (default VUndefined (w !! "register_implementors")) = true ∧
    IsCallable (default VUndefined (w !! "register_implementors")) = false) ∨
   ∃ f, hook_set w f ∧ fst (page f [VObject implementors] w) = Throw e).
Proof.
  unfold registration_step.
  destruct (hook_cases w) as [Hunset | [[f Hf] | [Htrue Hcall]]].
  - rewrite (handoff_unset page implementors w Hunset). cbn. split.
    + discriminate.
    + intros [(_ & Htrue & _) | (f & Hf & _)].
      * unfold hook_unset in Hunset. congruence.
      * destruct (hook_set_not_unset w f Hf Hunset).
  - rewrite (handoff_set page implementors w f Hf). cbn. split.
    + intros Hres. right. exists f. split; [exact Hf |].
      destruct (fst (page f [VObject implementors] w)) as [v | e'];
        [discriminate Hres | injection Hres as ->; reflexivity].
    + intros [(_ & _ & Hcall) | (f' & Hf' & Hthrown)].
      * unfold hook_set in Hf. rewrite Hf in Hcall. discriminate Hcall.
      * unfold hook_set in Hf, Hf'. rewrite Hf in Hf'.
        injection Hf' as <-. rewrite Hthrown. reflexivity.
  - rewrite (handoff_not_callable page implementors w Htrue Hcall). cbn. split.
    + intros [= <-]. left. done.
    + intros [(-> & _) | (f' & Hf' & _)]; [reflexivity |].
      unfold hook_set in Hf'. rewrite Hf' in Hcall. discriminate Hcall.
Qed.



(** X6: whatever the globals, the step does at most one thing to the page,
    and never both calls a function and writes a property. *)
Theorem at_most_one_action (w : gmap string value) :
  (length (trace (registration_step page w)) ≤ 1)%nat ∧
  (calls (trace (registration_step page w)) = [] ∨
   written_slots (trace (registration_step page w)) = []).
Proof.
  unfold registration_step.
  destruct (hook_cases w) as [Hunset | [[f Hf] | [Htrue Hcall]]].
  - rewrite (handoff_unset page implementors w Hunset). cbn.
    split; [lia | left; reflexivity].
  - rewrite (handoff_set page implementors w f Hf). cbn.
    split; [lia | right; reflexivity].
  - rewrite (handoff_not_callable page implementors w Htrue Hcall). cbn.
    split; [lia | left; reflexivity].
Qed.

(** X7: with no function installed, a global other than the two slots plays
    no part: setting it beforehand changes neither the completion nor what
    the step does, and it is still there afterwards. *)
Theorem unrelated_global_irrelevant (w : gmap string value) (k : string)
    (v : value) :
  k ≠ "register_implementors" →
  k ≠ "pending_implementors" →
  (∀ f, ¬ hook_set w f) →
  registration_step page (<[k := v]> w) =
    Outcome (result (registration_step page w))
            (<[k := v]> (final (registration_step page w)))
            (trace (registration_step page w)).
Proof.
  intros Hk1 Hk2 Hnone. unfold registration_step.
  assert (Hslot : <[k := v]> w !! "register_implementors" =
                  w !! "register_implementors")
    by (apply lookup_insert_ne; exact Hk1).
  destruct (hook_cases w) as [Hunset | [[f Hf] | [Htrue Hcall]]].
  - rewrite (handoff_unset page implementors w Hunset).
    rewrite handoff_unset by (unfold hook_unset; rewrite Hslot; exact Hunset).
    cbn. f_equal. apply insert_insert_ne. congruence.
  - destruct (Hnone f Hf).
  - rewrite (handoff_not_callable page implementors w Htrue Hcall).
    rewrite handoff_not_callable by (rewrite Hslot; assumption).
    reflexivity.
Qed.

(** X8: with no function installed, loading the file a second time is the
    same as loading it once: the same completion, the same single action, the
    same globals. *)
Theorem reload_without_hook (w : gmap string value) :
  (∀ f, ¬ hook_set w f) →
  reload page w = registration_step page w.
Proof.
  intros Hnone. unfold reload, registration_step.
  destruct (hook_cases w) as [Hunset | [[f Hf] | [Htrue Hcall]]].
  - rewrite (handoff_unset page implementors w Hunset). cbn.
    rewrite handoff_unset by (apply hook_unset_after_park; exact Hunset).
    f_equal. apply insert_insert_eq.
  - destruct (Hnone f Hf).
  - rewrite (handoff_not_callable page implementors w Htrue Hcall). cbn.
    apply handoff_not_callable; assumption.
Qed.

End Branching.

(** ** The branch laws on sample pages *)

Lemma type_error_iff_non_callable_witness :
  (ToBoolean (default VUndefined (page_flagged !! "register_implementors")) = true ∧
   IsCallable (default VUndefined (page_flagged !! "register_implementors")) = false) ∧
  registration_step broken page_flagged = Outcome (Throw TypeError) page_flagged [].
Proof.
  assert (Hbad :
    ToBoolean (default VUndefined (page_flagged !! "register_implementors")) = true ∧
    IsCallable (default VUndefined (page_flagged !! "register_implementors")) = false)
    by (split; reflexivity).
  split; [exact Hbad |].
  exact (proj1 (type_error_iff_non_callable broken page_flagged) Hbad).
Defined.

Lemma completes_normally_iff_witness :
  hook_set page_ready 1%positive ∧
  fst (render 1%positive [VObject implementors] page_ready) = Normal VUndefined ∧
  result (registration_step render page_ready) = Normal ().
Proof.
  split; [reflexivity |]. split; [reflexivity |].
  apply (proj2 (completes_normally_iff render page_ready)).
  right. exists 1%positive, VUndefined. split; reflexivity.
Defined.

Lemma step_throws_iff_witness :
  hook_set page_ready 1%positive ∧
  fst (broken 1%positive [VObject implementors] page_ready) =
    Throw (Exception (VString "boom")) ∧
  result (registration_step broken page_ready) =
    Throw (Exception (VString "boom")).
Proof.
  split; [reflexivity |]. split; [reflexivity |].
  apply (proj2 (step_throws_iff broken page_ready (Exception (VString "boom")))).
  right. exists 1%positive. split; reflexivity.
Defined.



Lemma unrelated_global_irrelevant_witness :
  "search_paths" ≠ "register_implementors" ∧
  "search_paths" ≠ "pending_implementors" ∧
  (∀ f, ¬ hook_set page_not_ready f) ∧
  registration_step quiet (<["search_paths" := VNumber 3]> page_not_ready) =
    Outcome (result (registration_step quiet page_not_ready))
            (<["search_paths" := VNumber 3]> (final (registration_step quiet page_not_ready)))
            (trace (registration_step quiet page_not_ready)).
Proof.
  assert (Hnone : ∀ f, ¬ hook_set page_not_ready f)
    by (intros f Hf; vm_compute in Hf; discriminate Hf).
  split; [discriminate |]. split; [discriminate |]. split; [exact Hnone |].
  apply (unrelated_global_irrelevant quiet page_not_ready "search_paths" (VNumber 3));
    [discriminate | discriminate | exact Hnone].
Defined.

Lemma reload_without_hook_witness :
  (∀ f, ¬ hook_set page_flagged f) ∧
  (∀ f, ¬ hook_set page_not_ready f) ∧
  reload broken page_flagged = registration_step broken page_flagged ∧
  reload quiet page_not_ready = registration_step quiet page_not_ready.
Proof.
  assert (Hflag : ∀ f, ¬ hook_set page_flagged f)
    by (intros f Hf; vm_compute in Hf; discriminate Hf).
  assert (Hnone : ∀ f, ¬ hook_set page_not_ready f)
    by (intros f Hf; vm_compute in Hf; discriminate Hf).
  split; [exact Hflag |]. split; [exact Hnone |]. split.
  - apply (reload_without_hook broken page_flagged Hflag).
  - apply (reload_without_hook quiet page_not_ready Hnone).
Defined.
